(** * The [Try] type of icssc/stdlib: a shallow embedding and its laws

    [Try<T>] wraps a computation that may throw.  An instance is either a
    [Success] holding a value or a [Failure] holding whatever was thrown.

    The embedding follows the TypeScript source method by method.
    TypeScript's type parameters are erased at run time and the source
    casts freely between them ([this as unknown as Try<U>], [this.e as X]),
    so payloads are modelled by one universal type of JavaScript values.
    Every [new] allocates an object with an identity of its own; since all
    fields are [readonly], an object reference is modelled as the
    allocation id together with the (immutable) contents.  Methods and
    callbacks are computations in a state-and-exception monad: they may
    allocate, change the variables their closure captured, and throw. *)

From Stdlib Require Import ZArith String List Lia DecimalString.
Import ListNotations.
Open Scope string_scope.

(** ** The JavaScript run time the class relies on *)

Module Js.

(** Numbers are the safe integers, from [-(2^53 - 1)] to [2^53 - 1]: the
    integers a double holds exactly and prints digit for digit. *)
Definition MAX_SAFE_INTEGER : Z := 9007199254740991.

Definition is_safe (n : Z) : bool := (Z.abs n <=? MAX_SAFE_INTEGER)%Z.

Record SafeInt : Type :=
  mkSafeInt { int_val : Z; int_safe : is_safe int_val = true }.

(** Integer literals are read as safe integers.  An integer out of the
    range has no counterpart here and is read as [0]; the development
    writes no such literal. *)
Definition to_safe (n : Z) : SafeInt :=
  match is_safe n as b return (is_safe n = b -> SafeInt) with
  | true => fun H => mkSafeInt n H
  | false => fun _ => mkSafeInt 0 eq_refl
  end eq_refl.
Coercion to_safe : Z >-> SafeInt.

(** Values.  [VSymbol] is a symbol and [VBareObject] an object without
    prototype ([Object.create(null)]): the two kinds of value that cannot
    be converted to a string.  [VError] is an object created by
    [new Error(message)], [VTypeError] a [TypeError] the run time
    creates; [VTry] is an instance of one of the two subclasses of
    [Try]. *)
Inductive JsVal : Type :=
| VUndefined
| VNull
| VBool (b : bool)
| VNum (n : SafeInt)
| VStr (s : string)
| VSymbol (id : nat)
| VBareObject (id : nat)
| VError (id : nat) (message : string)
| VTypeError (id : nat) (message : string)
| VTry (t : Try)
with Try : Type :=
| Success (id : nat) (value : JsVal)
| Failure (id : nat) (e : JsVal).
Arguments VNum n%_Z.

(** The state a computation runs in: the id the next [new] will hand
    out, and the mutable variables captured by the caller's closures. *)
Record State : Type := mkState { next_id : nat; vars : list JsVal }.

Definition bump (s : State) : State := mkState (S (next_id s)) (vars s).

(** How an evaluation ends: with a value, or with a thrown payload
    (JavaScript can throw any value). *)
Inductive Completion (A : Type) : Type :=
| Normal (a : A)
| Thrown (e : JsVal).
Arguments Normal {A} a.
Arguments Thrown {A} e.

Definition Comp (A : Type) : Type := State -> Completion A * State.

Definition ret {A} (a : A) : Comp A := fun s => (Normal a, s).

Definition throw {A} (e : JsVal) : Comp A := fun s => (Thrown e, s).

Definition bind {A B} (c : Comp A) (k : A -> Comp B) : Comp B :=
  fun s =>
    match c s with
    | (Normal a, s') => k a s'
    | (Thrown e, s') => (Thrown e, s')
    end.

(** [try { body } catch (e) { handler(e) }] *)
Definition try_catch {A} (body : Comp A) (handler : JsVal -> Comp A) : Comp A :=
  fun s =>
    match body s with
    | (Normal a, s') => (Normal a, s')
    | (Thrown e, s') => handler e s'
    end.

(** Allocation: the fresh id is the current counter. *)
Definition fresh : Comp nat := fun s => (Normal (next_id s), bump s).

(** [new Error(message)] *)
Definition new_Error (message : string) : Comp JsVal :=
  bind fresh (fun id => ret (VError id message)).

(** [new TypeError(message)], as the run time does on a failed
    conversion. *)
Definition new_TypeError (message : string) : Comp JsVal :=
  bind fresh (fun id => ret (VTypeError id message)).

(** ToBoolean: the falsy values are [undefined], [null], [false], [0]
    and the empty string; every symbol and every object is truthy. *)
Definition truthy (v : JsVal) : bool :=
  match v with
  | VUndefined | VNull => false
  | VBool b => b
  | VNum n => negb (Z.eqb (int_val n) 0)
  | VStr s => negb (String.eqb s "")
  | VSymbol _ | VBareObject _ | VError _ _ | VTypeError _ _ | VTry _ => true
  end.

(** [x != null] is false exactly for [null] and [undefined]. *)
Definition not_null (v : JsVal) : bool :=
  match v with
  | VUndefined | VNull => false
  | _ => true
  end.

(** The values a template literal can print. *)
Definition convertible (v : JsVal) : bool :=
  match v with
  | VSymbol _ | VBareObject _ => false
  | _ => true
  end.

(** ToString, as a template literal applies it.  A safe integer prints
    all its digits.  [Error.prototype.toString] prints the name and the
    message; the [Try] classes define no [toString], so
    [Object.prototype.toString] applies.  A symbol and an object without
    prototype have no conversion: the run time throws a new [TypeError]
    (the messages are those of V8). *)
Definition ToString (v : JsVal) : Comp string :=
  match v with
  | VUndefined => ret "undefined"
  | VNull => ret "null"
  | VBool true => ret "true"
  | VBool false => ret "false"
  | VNum n => ret (NilZero.string_of_int (Z.to_int (int_val n)))
  | VStr s => ret s
  | VSymbol _ =>
      bind (new_TypeError "Cannot convert a Symbol value to a string") throw
  | VBareObject _ =>
      bind (new_TypeError "Cannot convert object to primitive value") throw
  | VError _ "" => ret "Error"
  | VError _ m => ret ("Error: " ++ m)
  | VTypeError _ "" => ret "TypeError"
  | VTypeError _ m => ret ("TypeError: " ++ m)
  | VTry _ => ret "[object Object]"
  end.

(** Deep equality disregards which object a value is, and compares
    contents only: [erase] forgets the allocation ids. *)
Fixpoint erase (v : JsVal) : JsVal :=
  match v with
  | VBareObject _ => VBareObject 0
  | VError _ m => VError 0 m
  | VTypeError _ m => VTypeError 0 m
  | VTry t => VTry (erase_Try t)
  | _ => v
  end
with erase_Try (t : Try) : Try :=
  match t with
  | Success _ v => Success 0 (erase v)
  | Failure _ e => Failure 0 (erase e)
  end.

Definition deep_equal (t u : Try) : Prop := erase_Try t = erase_Try u.

End Js.
Export Js.

Declare Scope js_scope.
Delimit Scope js_scope with js.
Notation "x <- c ;; k" := (bind c (fun x => k))
  (at level 61, c at next level, right associativity) : js_scope.
Open Scope js_scope.

(** A caller-supplied function of one argument. *)
Definition Fn (A : Type) : Type := JsVal -> Comp A.

(** ** The class [Try] and its two subclasses *)

(** [new Success(value)] and [new Failure(e)] *)
Definition new_Success (value : JsVal) : Comp Try :=
  id <- fresh ;; ret (Success id value).

Definition new_Failure (e : JsVal) : Comp Try :=
  id <- fresh ;; ret (Failure id e).

(** [static from<T>(x: T)] *)
Definition Try_from (x : JsVal) : Comp Try := new_Success x.

(** [static of<T>(f: () => T)] *)
Definition Try_of (f : Comp JsVal) : Comp Try :=
  try_catch (x <- f ;; new_Success x) new_Failure.

(** The body both [Success.collect] and [Failure.recover] hand to [Try.of]. *)
Definition defined_or_throw (f : Fn JsVal) (arg : JsVal) : Comp JsVal :=
  x <- f arg ;;
  if not_null x then ret x
  else (str <- ToString arg ;;
        err <- new_Error ("Function not defined for " ++ str) ;;
        throw err).

Definition collect (this : Try) (f : Fn JsVal) : Comp Try :=
  match this with
  | Success _ value => Try_of (defined_or_throw f value)
  | Failure _ _ => ret this
  end.

Definition failed (this : Try) : Comp Try :=
  match this with
  | Success _ _ =>
      err <- new_Error "Cannot call failed() on instance of Success" ;;
      new_Failure err
  | Failure _ e => new_Success e
  end.

Definition filter (this : Try) (f : Fn JsVal) : Comp Try :=
  match this with
  | Success _ value =>
      b <- f value ;;
      if truthy b then ret this
      else (str <- ToString value ;;
            err <- new_Error ("Predicate does not hold for " ++ str) ;;
            new_Failure err)
  | Failure _ _ => ret this
  end.

Definition flatMap (this : Try) (f : Fn Try) : Comp Try :=
  match this with
  | Success _ value => try_catch (f value) new_Failure
  | Failure _ _ => ret this
  end.

Definition get (this : Try) : Comp JsVal :=
  match this with
  | Success _ value => ret value
  | Failure _ e => throw e
  end.

(** [flat] is declared once, in the base class, and only calls [get]. *)
Definition flat (this : Try) : Comp JsVal := get this.

Definition isFailure (this : Try) : bool :=
  match this with
  | Success _ _ => false
  | Failure _ _ => true
  end.

Definition isSuccess (this : Try) : bool :=
  match this with
  | Success _ _ => true
  | Failure _ _ => false
  end.

Definition map (this : Try) (f : Fn JsVal) : Comp Try :=
  match this with
  | Success _ value => Try_of (f value)
  | Failure _ _ => ret this
  end.

Definition recover (this : Try) (f : Fn JsVal) : Comp Try :=
  match this with
  | Success _ _ => ret this
  | Failure _ e => Try_of (defined_or_throw f e)
  end.

Definition reduce (this : Try) (f g : Fn JsVal) : Comp JsVal :=
  match this with
  | Success _ value => f value
  | Failure _ e => g e
  end.

(** ** The remaining synchronous methods *)


(** [or(x)]; the name [or] is taken by the disjunction of propositions. *)
Definition or_ (this x : Try) : Try :=
  match this with
  | Success _ _ => this
  | Failure _ _ => x
  end.

Definition orElse (this : Try) (x : JsVal) : JsVal :=
  match this with
  | Success _ value => value
  | Failure _ _ => x
  end.

(** [orElseThrow(f?)]: [f] is optional and defaults to [(e) => e]. *)
Definition orElseThrow (this : Try) (f : option (Fn JsVal)) : Comp JsVal :=
  match this with
  | Success _ value => ret value
  | Failure _ e =>
      p <- (match f with Some f => f | None => fun e => ret e end) e ;;
      throw p
  end.

(** [recoverWith(f)], with [f: (x: X) => Try<U> | null | undefined]: the
    callback's result is [Some] instance, or [None] for either of [null]
    and [undefined], which [x != null] does not tell apart. *)
Definition recoverWith (this : Try) (f : Fn (option Try)) : Comp Try :=
  match this with
  | Success _ _ => ret this
  | Failure _ e =>
      try_catch
        (x <- f e ;;
         match x with
         | Some t => ret t
         | None =>
             str <- ToString e ;;
             err <- new_Error ("Function not defined for " ++ str) ;;
             new_Failure err
         end)
        new_Failure
  end.

Definition toNullable (this : Try) : JsVal :=
  match this with
  | Success _ value => value
  | Failure _ _ => VUndefined
  end.

(** [transform(f, g)]: [g] is declared to return an instance, and is
    handed to [recoverWith] as it is. *)
Definition transform (this : Try) (f g : Fn Try) : Comp Try :=
  match this with
  | Success _ _ => flatMap this f
  | Failure _ _ => recoverWith this (fun x => t <- g x ;; ret (Some t))
  end.

(** [notNull], of [not-null.ts]: [x != null]. *)
Definition notNull (x : JsVal) : bool := not_null x.

(** ** Fluent chains

    A caller writes [t.map(f).filter(p).recover(h)...]: each method is
    called on the instance the previous one returned, and a throw ends
    the chain. *)
Inductive Call : Type :=
| CallCollect (f : Fn JsVal)
| CallFailed
| CallFilter (p : Fn JsVal)
| CallFlatMap (f : Fn Try)
| CallMap (f : Fn JsVal)
| CallRecover (f : Fn JsVal)
| CallRecoverWith (f : Fn (option Try))
| CallTransform (f g : Fn Try).

Definition call (c : Call) (this : Try) : Comp Try :=
  match c with
  | CallCollect f => collect this f
  | CallFailed => failed this
  | CallFilter p => filter this p
  | CallFlatMap f => flatMap this f
  | CallMap f => map this f
  | CallRecover f => recover this f
  | CallRecoverWith f => recoverWith this f
  | CallTransform f g => transform this f g
  end.

Fixpoint chain (calls : list Call) (this : Try) : Comp Try :=
  match calls with
  | [] => ret this
  | c :: rest => t <- call c this ;; chain rest t
  end.

(** The methods that act on the value of a [Success]. *)
Definition on_value (c : Call) : bool :=
  match c with
  | CallCollect _ | CallFilter _ | CallFlatMap _ | CallMap _ => true
  | _ => false
  end.

(** The methods that act on the payload of a [Failure]. *)
Definition on_error (c : Call) : bool :=
  match c with
  | CallRecover _ | CallRecoverWith _ => true
  | _ => false
  end.

Definition is_filter (c : Call) : bool :=
  match c with
  | CallFilter _ => true
  | _ => false
  end.

(** A function without effects on the state, which may still throw. *)
Definition effect_free (g : JsVal -> Completion JsVal) : Fn JsVal :=
  fun x s => (g x, s).

(** ** Sample states and callbacks, used to run the methods *)

Definition s0 : State := mkState 0 [].

(** [(x: number) => Try.from(2 * x)], the function of the test suite,
    for the numbers whose double is a safe integer; the sample answers
    [Try.from(undefined)] on everything else. *)
Definition double_from : Fn Try :=
  fun x => match x with
           | VNum n =>
               if is_safe (2 * int_val n) then Try_from (VNum (2 * int_val n))
               else Try_from VUndefined
           | _ => Try_from VUndefined
           end.

(** [(x) => x] *)
Definition identity : Fn JsVal := fun x => ret x.

(** [() => { throw "boom" }] *)
Definition boom {A} : Fn A := fun _ => throw (VStr "boom").

(** [(x) => { counter = x; return undefined }]: a callback that leaves a
    trace in a captured variable. *)
Definition record_call : Fn JsVal :=
  fun x s => (Normal VUndefined, mkState (next_id s) (x :: vars s)).

(** [y = Try.of(() => Try.of(() => { throw "boom" }))]: an outer [Success]
    around an inner [Failure], built through the public constructors. *)
Definition nested_failure : Comp Try :=
  Try_of (inner <- Try_of (boom VUndefined) ;; ret (VTry inner)).

(** [(x) => x > 0], on numbers. *)
Definition positive : Fn JsVal :=
  fun x => match x with
           | VNum n => ret (VBool (0 <? int_val n)%Z)
           | _ => ret (VBool false)
           end.

(** [(x) => (x > 0 ? x : undefined)], the partial function of the test
    suite. *)
Definition positive_or_undefined : Fn JsVal :=
  fun x => match x with
           | VNum n => ret (if (0 <? int_val n)%Z then x else VUndefined)
           | _ => ret VUndefined
           end.

(** [(x) => Try.from(x)], as a callback of [recoverWith]. *)
Definition from_payload : Fn (option Try) :=
  fun x => t <- Try_from x ;; ret (Some t).

(** [(_) => undefined], as a callback of [recoverWith]. *)
Definition undefined_for_all : Fn (option Try) := fun _ => ret None.

(** [(x) => notNull(x)] *)
Definition notNull_fn : Fn JsVal := fun x => ret (VBool (notNull x)).

(** [(_) => false] *)
Definition never : Fn JsVal := fun _ => ret (VBool false).

(** The falsy values that are neither [null] nor [undefined]. *)
Definition falsy_but_present : list JsVal := [VNum 0; VBool false; VStr ""].

(** ** Running the model on small inputs *)

Example ToString_num : ToString (VNum (-42)) s0 = (Normal "-42", s0).
Proof. reflexivity. Qed.

Example ToString_zero : ToString (VNum 0) s0 = (Normal "0", s0).
Proof. reflexivity. Qed.

Example ToString_MAX_SAFE_INTEGER :
  ToString (VNum MAX_SAFE_INTEGER) s0 = (Normal "9007199254740991", s0).
Proof. reflexivity. Qed.

Example ToString_Symbol :
  ToString (VSymbol 0) (mkState 1 [])
  = (Thrown (VTypeError 1 "Cannot convert a Symbol value to a string"),
     mkState 2 []).
Proof. reflexivity. Qed.

(** The first assertion of the test suite's monad-law test:
    [expect(mx.flatMap(f)).toEqual(f(x))] with [x = 5]. *)
Example test_left_identity :
  exists a b s1,
    (mx <- Try_from (VNum 5) ;;
     a <- flatMap mx double_from ;;
     b <- double_from (VNum 5) ;;
     ret (a, b)) s0 = (Normal (a, b), s1)
    /\ a = Success 1 (VNum 10) /\ b = Success 2 (VNum 10) /\ deep_equal a b.
Proof. do 3 eexists. repeat split. Qed.

(** When the function throws, [flatMap] does not: it returns a [Failure]
    around the payload. *)
Example flatMap_boom :
  (mx <- Try_from (VNum 5) ;; flatMap mx boom) s0
  = (Normal (Failure 1 (VStr "boom")), mkState 2 []).
Proof. reflexivity. Qed.

(** A [Failure] skips the callback: nothing is recorded. *)
Example collect_on_Failure_skips_callback :
  collect (Failure 0 (VStr "boom")) record_call (mkState 1 [])
  = (Normal (Failure 0 (VStr "boom")), mkState 1 []) /\
  collect (Success 0 (VNum 7)) record_call (mkState 1 [])
  = (Normal (Failure 2 (VError 1 "Function not defined for 7")),
     mkState 3 [VNum 7]).
Proof. split; reflexivity. Qed.

Example flatMap_double :
  (mx <- Try_from (VNum 5) ;; flatMap mx double_from) s0
  = (Normal (Success 1 (VNum 10)), mkState 2 []).
Proof. reflexivity. Qed.

(** ** How the building blocks run *)

Section Running.

Context {A : Type}.

Lemma bind_normal {B} (c : Comp A) (k : A -> Comp B) s a s1 :
  c s = (Normal a, s1) -> bind c k s = k a s1.
Proof. intros H. unfold bind. now rewrite H. Qed.

Lemma bind_thrown {B} (c : Comp A) (k : A -> Comp B) s e s1 :
  c s = (Thrown e, s1) -> bind c k s = (Thrown e, s1).
Proof. intros H. unfold bind. now rewrite H. Qed.

Lemma try_catch_normal (body : Comp A) handler s a s1 :
  body s = (Normal a, s1) -> try_catch body handler s = (Normal a, s1).
Proof. intros H. unfold try_catch. now rewrite H. Qed.

Lemma try_catch_thrown (body : Comp A) handler s e s1 :
  body s = (Thrown e, s1) -> try_catch body handler s = handler e s1.
Proof. intros H. unfold try_catch. now rewrite H. Qed.

End Running.

Lemma new_Success_run v s :
  new_Success v s = (Normal (Success (next_id s) v), bump s).
Proof. reflexivity. Qed.

Lemma new_Failure_run e s :
  new_Failure e s = (Normal (Failure (next_id s) e), bump s).
Proof. reflexivity. Qed.

Lemma new_Error_run m s :
  new_Error m s = (Normal (VError (next_id s) m), bump s).
Proof. reflexivity. Qed.

(** [Try.of] turns both ways its argument can end into an instance; it
    never throws itself. *)
Lemma Try_of_normal f s v s1 :
  f s = (Normal v, s1) ->
  Try_of f s = (Normal (Success (next_id s1) v), bump s1).
Proof.
  intros H. unfold Try_of.
  apply try_catch_normal. now rewrite (bind_normal _ _ _ _ _ H).
Qed.

Lemma Try_of_thrown f s e s1 :
  f s = (Thrown e, s1) ->
  Try_of f s = (Normal (Failure (next_id s1) e), bump s1).
Proof.
  intros H. unfold Try_of.
  rewrite (try_catch_thrown _ _ s e s1); [reflexivity|].
  now apply bind_thrown.
Qed.

(** The partial-function body of [collect] and [recover]. *)
Lemma defined_or_throw_present f arg s r s1 :
  f arg s = (Normal r, s1) -> not_null r = true ->
  defined_or_throw f arg s = (Normal r, s1).
Proof.
  intros H Hr. unfold defined_or_throw.
  rewrite (bind_normal _ _ _ _ _ H), Hr. reflexivity.
Qed.

(** A conversion to a string either returns, leaving the state as it
    was, or throws a [TypeError] it has just created. *)
Lemma ToString_convertible v s :
  convertible v = true -> exists str, ToString v s = (Normal str, s).
Proof.
  destruct v as [| | [|] | n | str | i | i | i [| c m] | i [| c m] | t];
    simpl; intros H; try discriminate H; eexists; reflexivity.
Qed.

Lemma ToString_unconvertible v s :
  convertible v = false ->
  exists m, ToString v s = (Thrown (VTypeError (next_id s) m), bump s).
Proof.
  destruct v; simpl; intros H; try discriminate H; eexists; reflexivity.
Qed.

Lemma ToString_returns_or_throws v s :
  (exists str, ToString v s = (Normal str, s)) \/
  (exists m, ToString v s = (Thrown (VTypeError (next_id s) m), bump s)).
Proof.
  destruct (convertible v) eqn:H.
  - left. now apply ToString_convertible.
  - right. now apply ToString_unconvertible.
Qed.

Lemma defined_or_throw_absent f arg s r s1 str s2 :
  f arg s = (Normal r, s1) -> not_null r = false ->
  ToString arg s1 = (Normal str, s2) ->
  defined_or_throw f arg s
  = (Thrown (VError (next_id s2) ("Function not defined for " ++ str)),
     bump s2).
Proof.
  intros H Hr Hstr. unfold defined_or_throw.
  rewrite (bind_normal _ _ _ _ _ H), Hr.
  rewrite (bind_normal _ _ _ _ _ Hstr). reflexivity.
Qed.

Lemma defined_or_throw_unconvertible f arg s r s1 p s2 :
  f arg s = (Normal r, s1) -> not_null r = false ->
  ToString arg s1 = (Thrown p, s2) ->
  defined_or_throw f arg s = (Thrown p, s2).
Proof.
  intros H Hr Hstr. unfold defined_or_throw.
  rewrite (bind_normal _ _ _ _ _ H), Hr.
  now apply bind_thrown.
Qed.

(** With an absent result the body always throws: the [Error] it made,
    or the [TypeError] of the conversion. *)
Lemma defined_or_throw_absent_throws f arg s r s1 :
  f arg s = (Normal r, s1) -> not_null r = false ->
  exists p s2, defined_or_throw f arg s = (Thrown p, s2).
Proof.
  intros H Hr.
  destruct (ToString arg s1) as [[str | p] s2] eqn:Hstr.
  - rewrite (defined_or_throw_absent _ _ _ _ _ _ _ H Hr Hstr). eauto.
  - rewrite (defined_or_throw_unconvertible _ _ _ _ _ _ _ H Hr Hstr). eauto.
Qed.

Lemma defined_or_throw_thrown f arg s e s1 :
  f arg s = (Thrown e, s1) -> defined_or_throw f arg s = (Thrown e, s1).
Proof. intros H. unfold defined_or_throw. now apply bind_thrown. Qed.

Lemma not_null_false_iff r :
  not_null r = false <-> r = VNull \/ r = VUndefined.
Proof.
  split.
  - destruct r; simpl; intros H; try discriminate; auto.
  - intros [-> | ->]; reflexivity.
Qed.

(** [flatMap] always returns an instance: whatever [f] throws is caught. *)
Lemma flatMap_returns this f s :
  exists t s1, flatMap this f s = (Normal t, s1).
Proof.
  destruct this as [i v | i e]; simpl.
  - unfold try_catch. destruct (f v s) as [[t | e] s1]; eauto.
    rewrite new_Failure_run. eauto.
  - unfold ret. eauto.
Qed.

(** ** Queries: [isSuccess], [isFailure], [get], [flat] *)

(** C7. For every instance exactly one of [isSuccess()] and [isFailure()]
    is true (each is the negation of the other), and for every value [v]
    the instance [Try.from(v)] answers [true] to [isSuccess()] and [false]
    to [isFailure()]. *)
Theorem isSuccess_isFailure_complement :
  (forall t : Try,
      isSuccess t = negb (isFailure t) /\
      isFailure t = negb (isSuccess t) /\
      xorb (isSuccess t) (isFailure t) = true) /\
  (forall (v : JsVal) (s : State),
      exists t s1,
        Try_from v s = (Normal t, s1) /\
        isSuccess t = true /\ isFailure t = false).
Proof.
  split.
  - intros [i v | i e]; simpl; auto.
  - intros v s. exists (Success (next_id s) v), (bump s).
    repeat split.
Qed.

(** C5. [get()] on a [Success] returns exactly the stored value, [get()]
    on a [Failure] throws exactly the stored payload (the very same value,
    object identity included), neither touches the state, and so [get()]
    throws if and only if the instance is a [Failure]. *)
Theorem get_returns_value_or_throws_payload :
  (forall i v s, get (Success i v) s = (Normal v, s)) /\
  (forall i e s, get (Failure i e) s = (Thrown e, s)) /\
  (forall t s, (exists p s1, get t s = (Thrown p, s1)) <-> isFailure t = true) /\
  (forall t s, (exists v s1, get t s = (Normal v, s1)) <-> isSuccess t = true).
Proof.
  repeat split.
  - destruct t as [i v | i e]; simpl; [|reflexivity].
    intros (p & s1 & H). discriminate H.
  - destruct t as [i v | i e]; simpl; [discriminate|].
    intros _. exists e, s. reflexivity.
  - destruct t as [i v | i e]; simpl; [reflexivity|].
    intros (p & s1 & H). discriminate H.
  - destruct t as [i v | i e]; simpl; [|discriminate].
    intros _. exists v, s. reflexivity.
Qed.

(** C8. [flat()] on an outer [Failure] does not return that [Failure]:
    it only calls [get()], so it throws the stored payload to the caller. *)
Theorem flat_on_Failure_throws_payload :
  forall i e s,
    flat (Failure i e) s = (Thrown e, s) /\
    (forall v s1, flat (Failure i e) s <> (Normal v, s1)).
Proof.
  intros i e s. split; [reflexivity|].
  intros v s1 H. discriminate H.
Qed.

(** C2, as the claim states it, fails: on an outer [Success] whose value
    is a [Failure], [flat()] does not throw.  It returns the inner
    [Failure]. *)
Lemma flat_inner_Failure_does_not_throw :
  (y <- nested_failure ;; flat y) s0
  = (Normal (VTry (Failure 0 (VStr "boom"))), mkState 2 []) /\
  nested_failure s0
  = (Normal (Success 1 (VTry (Failure 0 (VStr "boom")))), mkState 2 []) /\
  ~ (exists p s1,
        flat (Success 1 (VTry (Failure 0 (VStr "boom")))) (mkState 2 [])
        = (Thrown p, s1)).
Proof.
  repeat split.
  intros (p & s1 & H). discriminate H.
Qed.

(** C2, amended. [flat()] on an outer [Success] whose value is a [Failure]
    returns that inner [Failure], the same object, and throws nothing:
    [Success.get()] hands back the stored value whatever it is. *)
Theorem flat_on_Success_returns_inner :
  forall i j e s,
    flat (Success i (VTry (Failure j e))) s = (Normal (VTry (Failure j e)), s) /\
    (forall p s1, flat (Success i (VTry (Failure j e))) s <> (Thrown p, s1)).
Proof.
  intros i j e s. split; [reflexivity|].
  intros p s1 H. discriminate H.
Qed.

(** ** [filter], [collect], [failed] *)

(** [filter] has no handler of its own: what the predicate throws reaches
    the caller. *)
Lemma filter_predicate_throws i x p s e s1 :
  p x s = (Thrown e, s1) -> filter (Success i x) p s = (Thrown e, s1).
Proof. intros H. simpl. now apply bind_thrown. Qed.

(** On a [Success] whose predicate result is falsy, [filter] prints the
    value: it returns a new [Failure] when the conversion returns, and
    throws what the conversion throws otherwise. *)
Lemma filter_falsy_printed i x p s b s1 str s2 :
  p x s = (Normal b, s1) -> truthy b = false ->
  ToString x s1 = (Normal str, s2) ->
  filter (Success i x) p s
  = (Normal (Failure (S (next_id s2))
               (VError (next_id s2) ("Predicate does not hold for " ++ str))),
     bump (bump s2)).
Proof.
  intros H Hb Hstr. simpl.
  rewrite (bind_normal _ _ _ _ _ H), Hb.
  rewrite (bind_normal _ _ _ _ _ Hstr). reflexivity.
Qed.

Lemma filter_falsy_unprintable i x p s b s1 e s2 :
  p x s = (Normal b, s1) -> truthy b = false ->
  ToString x s1 = (Thrown e, s2) ->
  filter (Success i x) p s = (Thrown e, s2).
Proof.
  intros H Hb Hstr. simpl.
  rewrite (bind_normal _ _ _ _ _ H), Hb.
  now apply bind_thrown.
Qed.

(** C3. On a [Success] holding [x], when the predicate returns [b]:
    if [b] is truthy, [filter] returns the receiver itself (same id, same
    value) and allocates nothing; if [b] is falsy and [x] can be printed,
    it returns a [Failure] that did not exist before (its id is fresh)
    around an [Error], also new, whose message is "Predicate does not
    hold for " followed by the value printed.  If [b] is falsy and [x]
    is a symbol or an object without prototype, [filter] returns no
    [Failure]: the [TypeError] of the conversion reaches the caller,
    [filter] having no handler.  On a [Failure], [filter] returns the
    receiver itself and leaves the state as it was whatever the predicate
    is, so the predicate is not evaluated. *)
Theorem filter_keeps_or_fails :
  (forall i x (p : Fn JsVal) s b s1,
      p x s = (Normal b, s1) -> truthy b = true ->
      filter (Success i x) p s = (Normal (Success i x), s1)) /\
  (forall i x (p : Fn JsVal) s b s1,
      p x s = (Normal b, s1) -> truthy b = false -> convertible x = true ->
      exists str,
        ToString x s1 = (Normal str, s1) /\
        filter (Success i x) p s
        = (Normal (Failure (S (next_id s1))
                     (VError (next_id s1)
                        ("Predicate does not hold for " ++ str))),
           bump (bump s1))) /\
  (forall i x (p : Fn JsVal) s b s1,
      p x s = (Normal b, s1) -> truthy b = false -> convertible x = false ->
      exists m,
        filter (Success i x) p s
        = (Thrown (VTypeError (next_id s1) m), bump s1)) /\
  (forall i e (p : Fn JsVal) s,
      filter (Failure i e) p s = (Normal (Failure i e), s)).
Proof.
  split; [|split; [|split]].
  - intros i x p s b s1 H Hb. simpl.
    rewrite (bind_normal _ _ _ _ _ H), Hb. reflexivity.
  - intros i x p s b s1 H Hb Hx.
    destruct (ToString_convertible x s1 Hx) as (str & Hstr).
    exists str. split; [exact Hstr|].
    now apply (filter_falsy_printed _ _ _ _ b s1).
  - intros i x p s b s1 H Hb Hx.
    destruct (ToString_unconvertible x s1 Hx) as (m & Hstr).
    exists m. now apply (filter_falsy_unprintable _ _ _ _ b s1).
  - reflexivity.
Qed.

(** [Try.from(Symbol()).filter((_) => false)] throws. *)
Lemma filter_keeps_or_fails_witness :
  filter (Success 0 (VNum 1)) positive (mkState 1 [])
  = (Normal (Success 0 (VNum 1)), mkState 1 []) /\
  filter (Success 0 (VNum 0)) positive (mkState 1 [])
  = (Normal (Failure 2 (VError 1 "Predicate does not hold for 0")), mkState 3 []) /\
  (exists m,
      filter (Success 1 (VSymbol 0)) never (mkState 2 [])
      = (Thrown (VTypeError 2 m), mkState 3 [])).
Proof.
  destruct filter_keeps_or_fails as (Hkeep & Hfail & Hthrow & _).
  split; [|split].
  - exact (Hkeep 0 (VNum 1) positive (mkState 1 [])
             (VBool true) (mkState 1 []) eq_refl eq_refl).
  - destruct (Hfail 0 (VNum 0) positive (mkState 1 [])
                (VBool false) (mkState 1 []) eq_refl eq_refl eq_refl)
      as (str & Hstr & Hrun).
    injection Hstr as <-. exact Hrun.
  - exact (Hthrow 1 (VSymbol 0) never (mkState 2 [])
             (VBool false) (mkState 2 []) eq_refl eq_refl eq_refl).
Defined.



(** C6. [failed()] on a [Success] returns a new [Failure] around a new
    [Error] saying that [failed()] cannot be called on a [Success];
    [failed()] on a [Failure] holding [e] returns a new [Success] whose
    value is [e] itself. *)
Theorem failed_swaps_roles :
  (forall i x s,
      failed (Success i x) s
      = (Normal (Failure (S (next_id s))
                   (VError (next_id s)
                      "Cannot call failed() on instance of Success")),
         bump (bump s))) /\
  (forall i e s,
      failed (Failure i e) s = (Normal (Success (next_id s) e), bump s)) /\
  (forall t s, exists t1 s1,
      failed t s = (Normal t1, s1) /\
      isSuccess t1 = isFailure t /\ isFailure t1 = isSuccess t).
Proof.
  repeat split.
  intros [i x | i e] s; simpl; eexists; eexists; repeat split.
Qed.

(** ** [reduce] against the catching methods *)

(** C9. [reduce] on a [Success] is the call [f(value)] and nothing else,
    and on a [Failure] the call [g(e)] and nothing else: result and final
    state are those of the one function invoked, whatever the other one
    is.  There is no handler around the call: when the invoked function
    throws, [reduce] throws the same payload, where [map] and [flatMap]
    on the same receiver return a [Failure] holding it. *)
Theorem reduce_invokes_one_and_does_not_catch :
  (forall i v (f g : Fn JsVal) s, reduce (Success i v) f g s = f v s) /\
  (forall i e (f g : Fn JsVal) s, reduce (Failure i e) f g s = g e s) /\
  (forall i v (f g : Fn JsVal) s p s1,
      f v s = (Thrown p, s1) ->
      reduce (Success i v) f g s = (Thrown p, s1) /\
      map (Success i v) f s = (Normal (Failure (next_id s1) p), bump s1)) /\
  (forall i e (f g : Fn JsVal) s p s1,
      g e s = (Thrown p, s1) ->
      reduce (Failure i e) f g s = (Thrown p, s1)) /\
  (forall i v (h : Fn Try) s p s1,
      h v s = (Thrown p, s1) ->
      flatMap (Success i v) h s = (Normal (Failure (next_id s1) p), bump s1)).
Proof.
  split; [reflexivity|]. split; [reflexivity|].
  split; [|split].
  - intros i v f g s p s1 H. split; [exact H|].
    simpl. now apply Try_of_thrown.
  - intros i e f g s p s1 H. exact H.
  - intros i v h s p s1 H. simpl.
    now rewrite (try_catch_thrown _ _ _ _ _ H).
Qed.

Lemma reduce_invokes_one_and_does_not_catch_witness :
  (reduce (Success 0 (VNum 1)) boom record_call (mkState 1 [])
   = (Thrown (VStr "boom"), mkState 1 []) /\
   map (Success 0 (VNum 1)) boom (mkState 1 [])
   = (Normal (Failure 1 (VStr "boom")), mkState 2 [])) /\
  reduce (Failure 0 (VNum 1)) record_call boom (mkState 1 [])
  = (Thrown (VStr "boom"), mkState 1 []) /\
  flatMap (Success 0 (VNum 1)) boom (mkState 1 [])
  = (Normal (Failure 1 (VStr "boom")), mkState 2 []).
Proof.
  destruct reduce_invokes_one_and_does_not_catch as (_ & _ & Hf & Hg & Hh).
  split; [|split].
  - exact (Hf 0 (VNum 1) boom record_call (mkState 1 [])
             (VStr "boom") (mkState 1 []) eq_refl).
  - exact (Hg 0 (VNum 1) record_call boom (mkState 1 [])
             (VStr "boom") (mkState 1 []) eq_refl).
  - exact (Hh 0 (VNum 1) boom (mkState 1 [])
             (VStr "boom") (mkState 1 []) eq_refl).
Defined.

(** ** Absent results against falsy results *)

(** C10. In [collect] and [recover] a result is absent exactly when it is
    [null] or [undefined] (the test is [x != null]): whenever the function
    returns [r], the outcome is a [Success] if and only if [r] is neither.
    [filter] tests its predicate's result for truthiness instead: it
    keeps the receiver exactly when the result is truthy.  Hence for [0],
    [false] and the empty string, [collect] and [recover] return a
    [Success] holding that value, and [filter] returns a [Failure] when
    the receiver's value can be printed.  When it cannot (a symbol, an
    object without prototype), [filter] returns no [Failure]: it throws
    the [TypeError] of the conversion. *)
Theorem absent_is_null_or_undefined_not_falsy :
  (forall r, not_null r = false <-> r = VNull \/ r = VUndefined) /\
  (forall i x (f : Fn JsVal) s r s1,
      f x s = (Normal r, s1) ->
      exists t s2,
        collect (Success i x) f s = (Normal t, s2) /\ isSuccess t = not_null r) /\
  (forall i e (f : Fn JsVal) s r s1,
      f e s = (Normal r, s1) ->
      exists t s2,
        recover (Failure i e) f s = (Normal t, s2) /\ isSuccess t = not_null r) /\
  (forall i x (p : Fn JsVal) s r s1,
      p x s = (Normal r, s1) ->
      (truthy r = true ->
         filter (Success i x) p s = (Normal (Success i x), s1)) /\
      (truthy r = false -> convertible x = true ->
         exists t s2,
           filter (Success i x) p s = (Normal t, s2) /\ isFailure t = true) /\
      (truthy r = false -> convertible x = false ->
         exists e s2, filter (Success i x) p s = (Thrown e, s2))) /\
  (forall r, List.In r falsy_but_present ->
      not_null r = true /\ truthy r = false /\
      forall i x (f : Fn JsVal) s s1,
        f x s = (Normal r, s1) ->
        collect (Success i x) f s = (Normal (Success (next_id s1) r), bump s1) /\
        recover (Failure i x) f s = (Normal (Success (next_id s1) r), bump s1) /\
        (convertible x = true ->
           exists t s2,
             filter (Success i x) f s = (Normal t, s2) /\ isFailure t = true) /\
        (convertible x = false ->
           exists e s2, filter (Success i x) f s = (Thrown e, s2))).
Proof.
  split; [exact not_null_false_iff|].
  assert (Hof : forall (f : Fn JsVal) x s r s1,
             f x s = (Normal r, s1) ->
             exists t s2, Try_of (defined_or_throw f x) s = (Normal t, s2)
                          /\ isSuccess t = not_null r).
  { intros f x s r s1 H. destruct (not_null r) eqn:Hr.
    - rewrite (Try_of_normal _ _ _ _ (defined_or_throw_present _ _ _ _ _ H Hr)).
      eexists; eexists; split; reflexivity.
    - destruct (defined_or_throw_absent_throws _ _ _ _ _ H Hr) as (p & s2 & Hp).
      rewrite (Try_of_thrown _ _ _ _ Hp).
      eexists; eexists; split; reflexivity. }
  assert (Hprinted : forall i x (p : Fn JsVal) s r s1,
             p x s = (Normal r, s1) -> truthy r = false -> convertible x = true ->
             exists t s2, filter (Success i x) p s = (Normal t, s2)
                          /\ isFailure t = true).
  { intros i x p s r s1 H Hr Hx.
    destruct (ToString_convertible x s1 Hx) as (str & Hstr).
    rewrite (filter_falsy_printed _ _ _ _ _ _ _ _ H Hr Hstr).
    eexists; eexists; split; reflexivity. }
  assert (Hunprintable : forall i x (p : Fn JsVal) s r s1,
             p x s = (Normal r, s1) -> truthy r = false -> convertible x = false ->
             exists e s2, filter (Success i x) p s = (Thrown e, s2)).
  { intros i x p s r s1 H Hr Hx.
    destruct (ToString_unconvertible x s1 Hx) as (m & Hstr).
    rewrite (filter_falsy_unprintable _ _ _ _ _ _ _ _ H Hr Hstr). eauto. }
  split; [intros i x f s r s1 H; exact (Hof f x s r s1 H)|].
  split; [intros i e f s r s1 H; exact (Hof f e s r s1 H)|].
  split.
  { intros i x p s r s1 H. split; [|split].
    - intros Hr. simpl. rewrite (bind_normal _ _ _ _ _ H), Hr. reflexivity.
    - now apply (Hprinted i x p s r s1).
    - now apply (Hunprintable i x p s r s1). }
  intros r Hin.
  assert (Hr : not_null r = true /\ truthy r = false).
  { simpl in Hin. destruct Hin as [<- | [<- | [<- | []]]]; split; reflexivity. }
  destruct Hr as [Hn Ht]. split; [exact Hn|]. split; [exact Ht|].
  intros i x f s s1 H.
  split; [|split; [|split]].
  - simpl. apply Try_of_normal. now apply defined_or_throw_present.
  - simpl. apply Try_of_normal. now apply defined_or_throw_present.
  - now apply (Hprinted i x f s r s1).
  - now apply (Hunprintable i x f s r s1).
Qed.

(** [Try.from(Symbol()).filter((_) => 0)] throws; on a value that prints,
    the same predicate gives a [Failure]. *)
Lemma absent_is_null_or_undefined_not_falsy_witness :
  collect (Success 0 (VNum 0)) identity (mkState 1 [])
  = (Normal (Success 1 (VNum 0)), mkState 2 []) /\
  recover (Failure 0 (VNum 0)) identity (mkState 1 [])
  = (Normal (Success 1 (VNum 0)), mkState 2 []) /\
  (exists t s2,
      filter (Success 0 (VNum 0)) identity (mkState 1 []) = (Normal t, s2) /\
      isFailure t = true) /\
  (exists e s2,
      filter (Success 1 (VSymbol 0)) (fun _ => ret (VNum 0)) (mkState 2 [])
      = (Thrown e, s2)).
Proof.
  destruct absent_is_null_or_undefined_not_falsy as (_ & _ & _ & _ & H).
  destruct (H (VNum 0) (or_introl eq_refl)) as (_ & _ & Hrun).
  destruct (Hrun 0 (VNum 0) identity (mkState 1 []) (mkState 1 []) eq_refl)
    as (Hc & Hr & Hf & _).
  destruct (Hrun 1 (VSymbol 0) (fun _ => ret (VNum 0)) (mkState 2 [])
              (mkState 2 []) eq_refl)
    as (_ & _ & _ & Ht).
  split; [exact Hc|]. split; [exact Hr|].
  split; [exact (Hf eq_refl) | exact (Ht eq_refl)].
Defined.

(** ** The monad laws of [flatMap] *)

Lemma deep_equal_refl t : deep_equal t t.
Proof. reflexivity. Qed.

(** Two instances of the same class around the same payload are deeply
    equal, whichever objects they are. *)
Lemma deep_equal_Success i j v : deep_equal (Success i v) (Success j v).
Proof. reflexivity. Qed.

(** On a [Success], [flatMap] and a second [flatMap] chained after it run
    exactly as one [flatMap] with the composed function. *)
Lemma flatMap_assoc_Success i v (f g : Fn Try) s :
  (t <- flatMap (Success i v) f ;; flatMap t g) s
  = flatMap (Success i v) (fun x => t <- f x ;; flatMap t g) s.
Proof.
  simpl. unfold bind, try_catch.
  destruct (f v s) as [[t | e] s1].
  - destruct (flatMap_returns t g s1) as (t1 & s2 & H). now rewrite H.
  - rewrite new_Failure_run. reflexivity.
Qed.

(** C1. The three monad laws.
    Left identity: on every [Success] holding [x], in every state, when
    [f(x)] returns an instance, [flatMap(f)] runs exactly as [f(x)]: same
    instance returned, same final state.  So it is for [m = Try.from(x)],
    whenever [m.flatMap(f)] is called.
    Right identity: [m.flatMap(Try.from)] returns an instance deeply
    equal to [m] (a [Failure] is returned as it is; a [Success] is
    wrapped again around the same value).
    Associativity: [m.flatMap(f).flatMap(g)] and
    [m.flatMap(x => f(x).flatMap(g))] run exactly alike, for all [f] and
    [g], throwing or not. *)
Theorem flatMap_monad_laws :
  (forall i x (f : Fn Try) s t s2,
      f x s = (Normal t, s2) ->
      flatMap (Success i x) f s = (Normal t, s2) /\
      flatMap (Success i x) f s = f x s) /\
  (forall x (f : Fn Try) s0 m s1 s t s2,
      Try_from x s0 = (Normal m, s1) ->
      f x s = (Normal t, s2) ->
      flatMap m f s = (Normal t, s2) /\ flatMap m f s = f x s) /\
  (forall m s,
      exists m1 s1,
        flatMap m Try_from s = (Normal m1, s1) /\ deep_equal m1 m) /\
  (forall m (f g : Fn Try) s,
      (t <- flatMap m f ;; flatMap t g) s
      = flatMap m (fun x => t <- f x ;; flatMap t g) s).
Proof.
  assert (Hleft : forall i x (f : Fn Try) s t s2,
             f x s = (Normal t, s2) ->
             flatMap (Success i x) f s = (Normal t, s2) /\
             flatMap (Success i x) f s = f x s).
  { intros i x f s t s2 Hf. simpl.
    rewrite (try_catch_normal _ _ _ _ _ Hf).
    split; [reflexivity | now rewrite Hf]. }
  split; [exact Hleft|]. split; [|split].
  - intros x f s0 m s1 s t s2 Hm Hf.
    unfold Try_from in Hm. rewrite new_Success_run in Hm.
    injection Hm as <- _. now apply Hleft.
  - intros [i v | i e] s.
    + exists (Success (next_id s) v), (bump s). split; [reflexivity|].
      apply deep_equal_Success.
    + exists (Failure i e), s. split; [reflexivity | apply deep_equal_refl].
  - intros [i v | i e] f g s.
    + apply flatMap_assoc_Success.
    + reflexivity.
Qed.

(** [mx = Try.from(5); Try.from(6); mx.flatMap(f)], and [mx.flatMap(f)]
    right after [mx] is built. *)
Lemma flatMap_monad_laws_witness :
  (flatMap (Success 0 (VNum 5)) double_from (mkState 2 [])
   = (Normal (Success 2 (VNum 10)), mkState 3 []) /\
   flatMap (Success 0 (VNum 5)) double_from (mkState 2 [])
   = double_from (VNum 5) (mkState 2 [])) /\
  (flatMap (Success 0 (VNum 5)) double_from (mkState 1 [])
   = (Normal (Success 1 (VNum 10)), mkState 2 []) /\
   flatMap (Success 0 (VNum 5)) double_from (mkState 1 [])
   = double_from (VNum 5) (mkState 1 [])).
Proof.
  destruct flatMap_monad_laws as (Hany & Hfrom & _).
  split.
  - exact (Hany 0 (VNum 5) double_from (mkState 2 [])
             (Success 2 (VNum 10)) (mkState 3 []) eq_refl).
  - exact (Hfrom (VNum 5) double_from s0 (Success 0 (VNum 5)) (mkState 1 [])
             (mkState 1 []) (Success 1 (VNum 10)) (mkState 2 [])
             eq_refl eq_refl).
Defined.

(** ** [Try.of] and [get] *)

Lemma Try_of_returns (f : Comp JsVal) s :
  exists t s1, Try_of f s = (Normal t, s1).
Proof.
  destruct (f s) as [[v | e] s1] eqn:H.
  - rewrite (Try_of_normal _ _ _ _ H). eauto.
  - rewrite (Try_of_thrown _ _ _ _ H). eauto.
Qed.

(** X1. [Try.of(f)] never throws.  It returns a new [Success] around what
    [f] returned, or a new [Failure] around what [f] threw, after the
    effects of [f] and one allocation. *)
Theorem Try_of_captures_every_outcome :
  forall (f : Comp JsVal) s,
    exists t,
      Try_of f s = (Normal t, bump (snd (f s))) /\
      match fst (f s) with
      | Normal v => t = Success (next_id (snd (f s))) v
      | Thrown e => t = Failure (next_id (snd (f s))) e
      end.
Proof.
  intros f s. destruct (f s) as [[v | e] s1] eqn:H; simpl.
  - exists (Success (next_id s1) v). split; [now apply Try_of_normal | reflexivity].
  - exists (Failure (next_id s1) e). split; [now apply Try_of_thrown | reflexivity].
Qed.

(** X2. Wrapping and unwrapping are inverse to each other.
    [Try.of(f).get()] ends as [f()] ends: it returns what [f] returned or
    throws what [f] threw (the only trace of the detour is one allocation).
    [Try.of(() => t.get())] is deeply equal to [t]. *)
Theorem of_get_round_trip :
  (forall (f : Comp JsVal) s,
      (t <- Try_of f ;; get t) s = (fst (f s), bump (snd (f s)))) /\
  (forall t s,
      exists t1,
        Try_of (get t) s = (Normal t1, bump s) /\ deep_equal t1 t).
Proof.
  split.
  - intros f s. destruct (f s) as [[v | e] s1] eqn:H; simpl.
    + now rewrite (bind_normal _ _ _ _ _ (Try_of_normal _ _ _ _ H)).
    + now rewrite (bind_normal _ _ _ _ _ (Try_of_thrown _ _ _ _ H)).
  - intros [i v | i e] s; eexists; split; reflexivity.
Qed.

(** ** [map] *)

(** X3. [map(f)] is [flatMap(x => Try.from(f(x)))]: same instance
    returned, same final state, for every receiver and every [f]. *)
Theorem map_is_flatMap_of_from :
  forall this (f : Fn JsVal) s,
    map this f s = flatMap this (fun x => y <- f x ;; Try_from y) s.
Proof. intros [i v | i e] f s; reflexivity. Qed.

Lemma map_returns this f s :
  exists t s1, map this f s = (Normal t, s1).
Proof.
  destruct this as [i v | i e]; simpl.
  - destruct (Try_of_returns (f v) s) as (t & s1 & H). eauto.
  - unfold ret. eauto.
Qed.

(** X4. The functor laws, up to deep equality.  [map(x => x)] returns an
    instance deeply equal to the receiver.  For every [f], and every [g]
    that has no effect on the state (it may throw), [map(f).map(g)] and
    [map(x => g(f(x)))] return deeply equal instances and leave the
    captured variables in the same state. *)
Theorem map_functor_laws :
  (forall this s,
      exists t s1,
        map this (fun x => ret x) s = (Normal t, s1) /\ deep_equal t this) /\
  (forall this (f : Fn JsVal) (g : JsVal -> Completion JsVal) s,
      exists a sa b sb,
        (t <- map this f ;; map t (effect_free g)) s = (Normal a, sa) /\
        map this (fun x => y <- f x ;; effect_free g y) s = (Normal b, sb) /\
        deep_equal a b /\ vars sa = vars sb).
Proof.
  split.
  - intros [i v | i e] s; eexists; eexists; split; reflexivity.
  - intros [i v | i e] f g s.
    + simpl. unfold Try_of, try_catch, bind, effect_free.
      destruct (f v s) as [[y | p] s1]; simpl.
      * destruct (g y) as [z | q]; simpl;
          do 4 eexists; repeat split.
      * do 4 eexists; repeat split.
    + do 4 eexists; repeat split.
Qed.

(** X5. [collect] and [map] differ only on [null] and [undefined]: when
    [f(value)] throws or returns anything else, [collect(f)] runs exactly
    as [map(f)]; when it returns [null] or [undefined], [map] stores that
    as the value of a new [Success] where [collect] returns a [Failure]. *)
Theorem collect_agrees_with_map_unless_absent :
  (forall i x (f : Fn JsVal) s,
      (forall r s1, f x s = (Normal r, s1) -> not_null r = true) ->
      collect (Success i x) f s = map (Success i x) f s) /\
  (forall i x (f : Fn JsVal) s r s1,
      f x s = (Normal r, s1) -> not_null r = false ->
      map (Success i x) f s = (Normal (Success (next_id s1) r), bump s1) /\
      exists t s2,
        collect (Success i x) f s = (Normal t, s2) /\ isFailure t = true).
Proof.
  split.
  - intros i x f s Hpresent. simpl.
    destruct (f x s) as [[r | e] s1] eqn:H.
    + rewrite (Try_of_normal _ _ _ _ H).
      apply Try_of_normal, (defined_or_throw_present _ _ _ _ _ H).
      now apply (Hpresent r s1).
    + rewrite (Try_of_thrown _ _ _ _ H).
      apply Try_of_thrown. now apply defined_or_throw_thrown.
  - intros i x f s r s1 H Hr. split.
    + simpl. now apply Try_of_normal.
    + simpl.
      destruct (defined_or_throw_absent_throws _ _ _ _ _ H Hr) as (p & s2 & Hp).
      rewrite (Try_of_thrown _ _ _ _ Hp).
      eexists; eexists; split; reflexivity.
Qed.

Lemma collect_agrees_with_map_unless_absent_witness :
  collect (Success 0 (VNum 1)) positive_or_undefined (mkState 1 [])
  = map (Success 0 (VNum 1)) positive_or_undefined (mkState 1 []) /\
  map (Success 0 (VNum 0)) positive_or_undefined (mkState 1 [])
  = (Normal (Success 1 VUndefined), mkState 2 []).
Proof.
  split.
  - apply (proj1 collect_agrees_with_map_unless_absent 0 (VNum 1)
             positive_or_undefined (mkState 1 [])).
    intros r s1 H. injection H as <- _. reflexivity.
  - exact (proj1 (proj2 collect_agrees_with_map_unless_absent 0 (VNum 0)
                    positive_or_undefined (mkState 1 []) VUndefined
                    (mkState 1 []) eq_refl eq_refl)).
Defined.

(** ** Defaults: [or], [orElse], [toNullable], [orElseThrow] *)

(** X6. [or] picks the first [Success] from left to right: it returns the
    receiver itself when that is a [Success] and the argument itself
    otherwise; the result is a [Success] exactly when one of the two is;
    [or] is associative and idempotent. *)
Theorem or_picks_first_Success :
  (forall a b, isSuccess a = true -> or_ a b = a) /\
  (forall a b, isFailure a = true -> or_ a b = b) /\
  (forall a b, isSuccess (or_ a b) = (isSuccess a || isSuccess b)%bool) /\
  (forall a b c, or_ (or_ a b) c = or_ a (or_ b c)) /\
  (forall a, or_ a a = a).
Proof.
  repeat split.
  - intros [i v | i e] b H; [reflexivity | discriminate H].
  - intros [i v | i e] b H; [discriminate H | reflexivity].
  - intros [i v | i e] b; reflexivity.
  - intros [i v | i e] b c; reflexivity.
  - intros [i v | i e]; reflexivity.
Qed.

Lemma or_picks_first_Success_witness :
  or_ (Success 0 (VNum 1)) (Failure 1 VNull) = Success 0 (VNum 1) /\
  or_ (Failure 1 VNull) (Success 0 (VNum 1)) = Success 0 (VNum 1).
Proof.
  destruct or_picks_first_Success as (Hs & Hf & _).
  split.
  - exact (Hs (Success 0 (VNum 1)) (Failure 1 VNull) eq_refl).
  - exact (Hf (Failure 1 VNull) (Success 0 (VNum 1)) eq_refl).
Defined.

(** X7. [orElse] and [toNullable] are [get] made total: whenever [get()]
    returns [v], so do [orElse(x)] and [toNullable()]; whenever [get()]
    throws, [orElse(x)] is [x] and [toNullable()] is [undefined]; and
    [toNullable()] is [orElse(undefined)].  [toNullable()] answers
    [undefined] both for a [Failure] and for a [Success] holding
    [undefined]. *)
Theorem orElse_toNullable_total_get :
  (forall t s v s1,
      get t s = (Normal v, s1) ->
      forall x, orElse t x = v /\ toNullable t = v) /\
  (forall t s p s1,
      get t s = (Thrown p, s1) ->
      forall x, orElse t x = x /\ toNullable t = VUndefined) /\
  (forall t, toNullable t = orElse t VUndefined) /\
  (forall i j e, toNullable (Success i VUndefined) = toNullable (Failure j e)).
Proof.
  split; [|split; [|split]].
  - intros [i w | i e] s v s1 H x; simpl in *; [|discriminate H].
    unfold ret in H. injection H as -> _. split; reflexivity.
  - intros [i w | i e] s p s1 H x; simpl in *; [discriminate H|].
    split; reflexivity.
  - intros [i w | i e]; reflexivity.
  - reflexivity.
Qed.

Lemma orElse_toNullable_total_get_witness :
  (orElse (Success 0 (VNum 1)) (VNum 0) = VNum 1 /\
   toNullable (Success 0 (VNum 1)) = VNum 1) /\
  (orElse (Failure 0 (VStr "boom")) (VNum 0) = VNum 0 /\
   toNullable (Failure 0 (VStr "boom")) = VUndefined).
Proof.
  destruct orElse_toNullable_total_get as (Hn & Ht & _).
  split.
  - exact (Hn (Success 0 (VNum 1)) s0 (VNum 1) s0 eq_refl (VNum 0)).
  - exact (Ht (Failure 0 (VStr "boom")) s0 (VStr "boom") s0 eq_refl (VNum 0)).
Defined.

(** X8. [t.orElse(x)] is [t.or(Try.from(x)).get()]: the chain never
    throws and returns the value [orElse] returns. *)
Theorem orElse_is_or_from_get :
  forall t x s,
    (u <- Try_from x ;; get (or_ t u)) s = (Normal (orElse t x), bump s).
Proof. intros [i v | i e] x s; reflexivity. Qed.

(** X9. [orElseThrow()] without a function is [get()].  On a [Failure],
    [orElseThrow] never returns, whatever the function: it throws what
    the function returned, or what the function threw.  On a [Success] it
    returns the value and the function is not invoked. *)
Theorem orElseThrow_always_throws_on_Failure :
  (forall t s, orElseThrow t None s = get t s) /\
  (forall i e f s v s1, orElseThrow (Failure i e) f s <> (Normal v, s1)) /\
  (forall i e (f : Fn JsVal) s p s1,
      f e s = (Normal p, s1) ->
      orElseThrow (Failure i e) (Some f) s = (Thrown p, s1)) /\
  (forall i e (f : Fn JsVal) s q s1,
      f e s = (Thrown q, s1) ->
      orElseThrow (Failure i e) (Some f) s = (Thrown q, s1)) /\
  (forall i v f s, orElseThrow (Success i v) f s = (Normal v, s)).
Proof.
  split; [intros [i v | i e] s; reflexivity|].
  split; [|split; [|split]].
  - intros i e f s v s1. simpl. unfold bind.
    destruct f as [f|]; [destruct (f e s) as [[p | q] s2]|]; discriminate.
  - intros i e f s p s1 H. simpl. now rewrite (bind_normal _ _ _ _ _ H).
  - intros i e f s q s1 H. simpl. now apply bind_thrown.
  - reflexivity.
Qed.

Lemma orElseThrow_always_throws_on_Failure_witness :
  orElseThrow (Failure 0 (VStr "foo")) (Some (fun _ => ret (VStr "bar"))) s0
  = (Thrown (VStr "bar"), s0) /\
  orElseThrow (Failure 0 (VStr "foo")) (Some boom) s0
  = (Thrown (VStr "boom"), s0).
Proof.
  destruct orElseThrow_always_throws_on_Failure as (_ & _ & Hr & Ht & _).
  split.
  - exact (Hr 0 (VStr "foo") (fun _ => ret (VStr "bar")) s0 (VStr "bar") s0 eq_refl).
  - exact (Ht 0 (VStr "foo") boom s0 (VStr "boom") s0 eq_refl).
Defined.

(** ** Recovery: [recover], [recoverWith], [transform] *)

Lemma recoverWith_returns this f s :
  exists t s1, recoverWith this f s = (Normal t, s1).
Proof.
  destruct this as [i v | i e]; simpl.
  - unfold ret. eauto.
  - unfold try_catch, bind.
    destruct (f e s) as [[[t |] | p] s1].
    + unfold ret. eauto.
    + destruct (ToString e s1) as [[str | q] s2].
      * rewrite new_Error_run, new_Failure_run. eauto.
      * rewrite new_Failure_run. eauto.
    + rewrite new_Failure_run. eauto.
Qed.

(** X10. [recover] mirrors [collect]: on a [Failure] holding [e] it runs
    exactly as [collect] does on a [Success] holding [e].  So it returns a
    new [Success] around a result that is not [null] or [undefined]; for
    a result that is, a new [Failure], around a new [Error] "Function not
    defined for " followed by [e] printed or, when [e] cannot be printed,
    around the [TypeError] of the conversion; and a new [Failure] around
    what [f] threw.  On a [Success] it returns the receiver itself and
    [f] is not invoked. *)
Theorem recover_mirrors_collect :
  (forall i j e (f : Fn JsVal) s,
      recover (Failure i e) f s = collect (Success j e) f s) /\
  (forall i e (f : Fn JsVal) s r s1,
      f e s = (Normal r, s1) -> not_null r = true ->
      recover (Failure i e) f s = (Normal (Success (next_id s1) r), bump s1)) /\
  (forall i e (f : Fn JsVal) s r s1,
      f e s = (Normal r, s1) -> not_null r = false -> convertible e = true ->
      exists str,
        ToString e s1 = (Normal str, s1) /\
        recover (Failure i e) f s
        = (Normal (Failure (S (next_id s1))
                     (VError (next_id s1)
                        ("Function not defined for " ++ str))),
           bump (bump s1))) /\
  (forall i e (f : Fn JsVal) s r s1,
      f e s = (Normal r, s1) -> not_null r = false -> convertible e = false ->
      exists m,
        recover (Failure i e) f s
        = (Normal (Failure (S (next_id s1)) (VTypeError (next_id s1) m)),
           bump (bump s1))) /\
  (forall i e (f : Fn JsVal) s p s1,
      f e s = (Thrown p, s1) ->
      recover (Failure i e) f s = (Normal (Failure (next_id s1) p), bump s1)) /\
  (forall i v (f : Fn JsVal) s,
      recover (Success i v) f s = (Normal (Success i v), s)).
Proof.
  split; [reflexivity|]. split; [|split; [|split; [|split]]].
  - intros i e f s r s1 H Hr. simpl.
    apply Try_of_normal. now apply defined_or_throw_present.
  - intros i e f s r s1 H Hr He.
    destruct (ToString_convertible e s1 He) as (str & Hstr).
    exists str. split; [exact Hstr|]. simpl.
    now rewrite (Try_of_thrown _ _ _ _
                   (defined_or_throw_absent _ _ _ _ _ _ _ H Hr Hstr)).
  - intros i e f s r s1 H Hr He.
    destruct (ToString_unconvertible e s1 He) as (m & Hstr).
    exists m. simpl.
    now rewrite (Try_of_thrown _ _ _ _
                   (defined_or_throw_unconvertible _ _ _ _ _ _ _ H Hr Hstr)).
  - intros i e f s p s1 H. simpl.
    apply Try_of_thrown. now apply defined_or_throw_thrown.
  - reflexivity.
Qed.

Lemma recover_mirrors_collect_witness :
  recover (Failure 0 (VNum 1)) positive_or_undefined (mkState 1 [])
  = (Normal (Success 1 (VNum 1)), mkState 2 []) /\
  recover (Failure 0 (VError 7 "foo")) (fun _ => ret VUndefined) (mkState 1 [])
  = (Normal (Failure 2 (VError 1 "Function not defined for Error: foo")),
     mkState 3 []) /\
  (exists m,
      recover (Failure 1 (VSymbol 0)) (fun _ => ret VUndefined) (mkState 2 [])
      = (Normal (Failure 3 (VTypeError 2 m)), mkState 4 [])) /\
  recover (Failure 0 (VNum 1)) boom (mkState 1 [])
  = (Normal (Failure 1 (VStr "boom")), mkState 2 []).
Proof.
  destruct recover_mirrors_collect as (_ & Hp & Ha & Hu & Ht & _).
  split; [|split; [|split]].
  - exact (Hp 0 (VNum 1) positive_or_undefined (mkState 1 [])
             (VNum 1) (mkState 1 []) eq_refl eq_refl).
  - destruct (Ha 0 (VError 7 "foo") (fun _ => ret VUndefined) (mkState 1 [])
                VUndefined (mkState 1 []) eq_refl eq_refl eq_refl)
      as (str & Hstr & Hrun).
    injection Hstr as <-. exact Hrun.
  - exact (Hu 1 (VSymbol 0) (fun _ => ret VUndefined) (mkState 2 [])
             VUndefined (mkState 2 []) eq_refl eq_refl eq_refl).
  - exact (Ht 0 (VNum 1) boom (mkState 1 [])
             (VStr "boom") (mkState 1 []) eq_refl).
Defined.

(** X11. [recoverWith] on a [Failure] holding [e]: when [f] returns an
    instance, that very instance is returned and nothing is allocated;
    when [f] returns [null] or [undefined], a new [Failure], around a new
    [Error] "Function not defined for " followed by [e] printed or, when
    [e] cannot be printed, around the [TypeError] of the conversion; when
    [f] throws, a new [Failure] around the payload.  On a [Success] the
    receiver itself is returned and [f] is not invoked. *)
Theorem recoverWith_returns_callback_instance :
  (forall i e (f : Fn (option Try)) s t s1,
      f e s = (Normal (Some t), s1) ->
      recoverWith (Failure i e) f s = (Normal t, s1)) /\
  (forall i e (f : Fn (option Try)) s s1,
      f e s = (Normal None, s1) -> convertible e = true ->
      exists str,
        ToString e s1 = (Normal str, s1) /\
        recoverWith (Failure i e) f s
        = (Normal (Failure (S (next_id s1))
                     (VError (next_id s1)
                        ("Function not defined for " ++ str))),
           bump (bump s1))) /\
  (forall i e (f : Fn (option Try)) s s1,
      f e s = (Normal None, s1) -> convertible e = false ->
      exists m,
        recoverWith (Failure i e) f s
        = (Normal (Failure (S (next_id s1)) (VTypeError (next_id s1) m)),
           bump (bump s1))) /\
  (forall i e (f : Fn (option Try)) s p s1,
      f e s = (Thrown p, s1) ->
      recoverWith (Failure i e) f s
      = (Normal (Failure (next_id s1) p), bump s1)) /\
  (forall i v (f : Fn (option Try)) s,
      recoverWith (Success i v) f s = (Normal (Success i v), s)).
Proof.
  split; [|split; [|split; [|split]]].
  - intros i e f s t s1 H. simpl. unfold try_catch, bind. now rewrite H.
  - intros i e f s s1 H He.
    destruct (ToString_convertible e s1 He) as (str & Hstr).
    exists str. split; [exact Hstr|].
    simpl. unfold try_catch, bind. now rewrite H, Hstr.
  - intros i e f s s1 H He.
    destruct (ToString_unconvertible e s1 He) as (m & Hstr).
    exists m. simpl. unfold try_catch, bind. now rewrite H, Hstr.
  - intros i e f s p s1 H. simpl. unfold try_catch, bind. now rewrite H.
  - reflexivity.
Qed.

Lemma recoverWith_returns_callback_instance_witness :
  recoverWith (Failure 0 (VStr "foo")) from_payload (mkState 1 [])
  = (Normal (Success 1 (VStr "foo")), mkState 2 []) /\
  recoverWith (Failure 0 (VStr "foo")) undefined_for_all (mkState 1 [])
  = (Normal (Failure 2 (VError 1 "Function not defined for foo")), mkState 3 []) /\
  (exists m,
      recoverWith (Failure 1 (VSymbol 0)) undefined_for_all (mkState 2 [])
      = (Normal (Failure 3 (VTypeError 2 m)), mkState 4 [])) /\
  recoverWith (Failure 0 (VStr "foo")) boom (mkState 1 [])
  = (Normal (Failure 1 (VStr "boom")), mkState 2 []).
Proof.
  destruct recoverWith_returns_callback_instance as (Hs & Hn & Hu & Ht & _).
  split; [|split; [|split]].
  - exact (Hs 0 (VStr "foo") from_payload (mkState 1 [])
             (Success 1 (VStr "foo")) (mkState 2 []) eq_refl).
  - destruct (Hn 0 (VStr "foo") undefined_for_all (mkState 1 [])
                (mkState 1 []) eq_refl eq_refl)
      as (str & Hstr & Hrun).
    injection Hstr as <-. exact Hrun.
  - exact (Hu 1 (VSymbol 0) undefined_for_all (mkState 2 [])
             (mkState 2 []) eq_refl eq_refl).
  - exact (Ht 0 (VStr "foo") boom (mkState 1 [])
             (VStr "boom") (mkState 1 []) eq_refl).
Defined.

(** X12. [transform(f, g)] is [flatMap] on whichever payload the receiver
    holds: on a [Success] it runs as [flatMap(f)], on a [Failure] holding
    [e] it runs exactly as [flatMap(g)] would on a [Success] holding [e].
    Unlike [reduce] it never throws: what [f] or [g] throws comes back as
    a [Failure]. *)
Theorem transform_is_flatMap_on_either_payload :
  (forall i v (f g : Fn Try) s,
      transform (Success i v) f g s = flatMap (Success i v) f s) /\
  (forall i j e (f g : Fn Try) s,
      transform (Failure i e) f g s = flatMap (Success j e) g s) /\
  (forall this (f g : Fn Try) s,
      exists t s1, transform this f g s = (Normal t, s1)).
Proof.
  split; [reflexivity|].
  assert (H : forall i j e (f g : Fn Try) s,
             transform (Failure i e) f g s = flatMap (Success j e) g s).
  { intros i j e f g s. simpl. unfold try_catch, bind.
    destruct (g e s) as [[t | p] s1]; reflexivity. }
  split; [exact H|].
  intros [i v | i e] f g s.
  - apply flatMap_returns.
  - rewrite (H i 0 e f g s). apply flatMap_returns.
Qed.

(** ** Side effects: [ifSuccessOrElse] *)


(** ** [failed] and [get] *)

(** X14. On a [Failure], [failed().get()] returns the payload that
    [get()] throws.  [failed] is not its own inverse: [failed().failed()]
    has the variant of the receiver, but its payload is the [Error] made
    by [failed], not the receiver's. *)
Theorem failed_then_get_returns_payload :
  (forall i e s,
      get (Failure i e) s = (Thrown e, s) /\
      (t <- failed (Failure i e) ;; get t) s = (Normal e, bump s)) /\
  (forall i e s,
      (t <- failed (Failure i e) ;; failed t) s
      = (Normal (Failure (S (S (next_id s)))
                   (VError (S (next_id s))
                      "Cannot call failed() on instance of Success")),
         bump (bump (bump s)))) /\
  (forall i v s,
      (t <- failed (Success i v) ;; failed t) s
      = (Normal (Success (S (S (next_id s)))
                   (VError (next_id s)
                      "Cannot call failed() on instance of Success")),
         bump (bump (bump s)))).
Proof. repeat split. Qed.

(** ** [filter] and [notNull] *)

(** X15. [filter] is the one transformation without a handler: when the
    predicate throws on the value of a [Success], [filter] throws the same
    payload, where [map] and [collect] given the same function return a
    new [Failure] holding it. *)
Theorem filter_has_no_handler :
  forall i x (f : Fn JsVal) s p s1,
    f x s = (Thrown p, s1) ->
    filter (Success i x) f s = (Thrown p, s1) /\
    map (Success i x) f s = (Normal (Failure (next_id s1) p), bump s1) /\
    collect (Success i x) f s = (Normal (Failure (next_id s1) p), bump s1).
Proof.
  intros i x f s p s1 H. split; [|split].
  - now apply filter_predicate_throws.
  - simpl. now apply Try_of_thrown.
  - simpl. apply Try_of_thrown. now apply defined_or_throw_thrown.
Qed.

Lemma filter_has_no_handler_witness :
  filter (Success 0 (VNum 1)) boom (mkState 1 [])
  = (Thrown (VStr "boom"), mkState 1 []) /\
  map (Success 0 (VNum 1)) boom (mkState 1 [])
  = (Normal (Failure 1 (VStr "boom")), mkState 2 []) /\
  collect (Success 0 (VNum 1)) boom (mkState 1 [])
  = (Normal (Failure 1 (VStr "boom")), mkState 2 []).
Proof.
  exact (filter_has_no_handler 0 (VNum 1) boom (mkState 1 [])
           (VStr "boom") (mkState 1 []) eq_refl).
Defined.

(** X16. [notNull] rejects [null] and [undefined] and nothing else, so it
    accepts every truthy value and also [0], [false] and the empty
    string.  As a predicate of [filter] it keeps a [Success] (the receiver
    itself) exactly when the value is neither [null] nor [undefined]. *)
Theorem notNull_rejects_only_null_and_undefined :
  (forall x, notNull x = false <-> x = VNull \/ x = VUndefined) /\
  (forall x, truthy x = true -> notNull x = true) /\
  (forall x, List.In x falsy_but_present -> notNull x = true) /\
  (forall i x s,
      notNull x = true ->
      filter (Success i x) notNull_fn s = (Normal (Success i x), s)) /\
  (forall i x s,
      notNull x = false ->
      exists t s1,
        filter (Success i x) notNull_fn s = (Normal t, s1) /\
        isFailure t = true).
Proof.
  split; [exact not_null_false_iff|].
  split; [intros x; destruct x; simpl; intros H; (discriminate H || reflexivity)|].
  split.
  { intros x Hin. simpl in Hin.
    destruct Hin as [<- | [<- | [<- | []]]]; reflexivity. }
  split.
  - intros i x s H. simpl. unfold bind, notNull_fn, ret. now rewrite H.
  - intros i x s H.
    destruct x; simpl in H; try discriminate H;
      eexists; eexists; split; reflexivity.
Qed.

Lemma notNull_rejects_only_null_and_undefined_witness :
  notNull (VStr "") = true /\
  filter (Success 0 (VNum 0)) notNull_fn (mkState 1 [])
  = (Normal (Success 0 (VNum 0)), mkState 1 []) /\
  exists t s1,
    filter (Success 0 VNull) notNull_fn (mkState 1 []) = (Normal t, s1) /\
    isFailure t = true.
Proof.
  destruct notNull_rejects_only_null_and_undefined as (_ & _ & Hin & Hk & Hr).
  split; [|split].
  - exact (Hin (VStr "") (or_intror (or_intror (or_introl eq_refl)))).
  - exact (Hk 0 (VNum 0) (mkState 1 []) eq_refl).
  - exact (Hr 0 VNull (mkState 1 []) eq_refl).
Defined.

(** ** [flat] against [flatMap] *)

(** X17. [flatMap(f)] is [map(f).flat()] only while nothing fails.  When
    [f] returns an instance, both give that instance.  When [f] throws,
    and when the receiver is a [Failure], [flatMap] returns a [Failure]
    and [map(f).flat()] throws its payload. *)
Theorem flatMap_is_map_then_flat_unless_failing :
  (forall i v (f : Fn Try) s u s1,
      f v s = (Normal u, s1) ->
      flatMap (Success i v) f s = (Normal u, s1) /\
      (m <- map (Success i v) (fun x => t <- f x ;; ret (VTry t)) ;; flat m) s
      = (Normal (VTry u), bump s1)) /\
  (forall i v (f : Fn Try) s p s1,
      f v s = (Thrown p, s1) ->
      flatMap (Success i v) f s = (Normal (Failure (next_id s1) p), bump s1) /\
      (m <- map (Success i v) (fun x => t <- f x ;; ret (VTry t)) ;; flat m) s
      = (Thrown p, bump s1)) /\
  (forall i e (f : Fn Try) s,
      flatMap (Failure i e) f s = (Normal (Failure i e), s) /\
      (m <- map (Failure i e) (fun x => t <- f x ;; ret (VTry t)) ;; flat m) s
      = (Thrown e, s)).
Proof.
  split; [|split].
  - intros i v f s u s1 H. split.
    + simpl. now apply try_catch_normal.
    + simpl. unfold Try_of, try_catch, bind. now rewrite H.
  - intros i v f s p s1 H. split.
    + simpl. now rewrite (try_catch_thrown _ _ _ _ _ H).
    + simpl. unfold Try_of, try_catch, bind. now rewrite H.
  - intros i e f s. split; reflexivity.
Qed.

Lemma flatMap_is_map_then_flat_unless_failing_witness :
  (flatMap (Success 0 (VNum 5)) double_from (mkState 1 [])
   = (Normal (Success 1 (VNum 10)), mkState 2 []) /\
   (m <- map (Success 0 (VNum 5)) (fun x => t <- double_from x ;; ret (VTry t)) ;;
    flat m) (mkState 1 [])
   = (Normal (VTry (Success 1 (VNum 10))), mkState 3 [])) /\
  (flatMap (Success 0 (VNum 5)) boom (mkState 1 [])
   = (Normal (Failure 1 (VStr "boom")), mkState 2 []) /\
   (m <- map (Success 0 (VNum 5)) (fun x => t <- boom x ;; ret (VTry t)) ;;
    flat m) (mkState 1 [])
   = (Thrown (VStr "boom"), mkState 2 [])).
Proof.
  destruct flatMap_is_map_then_flat_unless_failing as (Hr & Ht & _).
  split.
  - exact (Hr 0 (VNum 5) double_from (mkState 1 [])
             (Success 1 (VNum 10)) (mkState 2 []) eq_refl).
  - exact (Ht 0 (VNum 5) boom (mkState 1 [])
             (VStr "boom") (mkState 1 []) eq_refl).
Defined.

(** ** What fluent chains keep *)

Lemma collect_returns this f s :
  exists t s1, collect this f s = (Normal t, s1).
Proof.
  destruct this as [i v | i e]; simpl.
  - apply Try_of_returns.
  - unfold ret. eauto.
Qed.

Lemma recover_returns this f s :
  exists t s1, recover this f s = (Normal t, s1).
Proof.
  destruct this as [i v | i e]; simpl.
  - unfold ret. eauto.
  - apply Try_of_returns.
Qed.

Lemma failed_returns this s :
  exists t s1, failed this s = (Normal t, s1).
Proof. destruct this as [i v | i e]; simpl; eexists; eexists; reflexivity. Qed.

Lemma transform_returns this f g s :
  exists t s1, transform this f g s = (Normal t, s1).
Proof.
  destruct this as [i v | i e].
  - apply flatMap_returns.
  - apply recoverWith_returns.
Qed.

(** Every method but [filter] returns an instance. *)
Lemma call_returns c this s :
  is_filter c = false -> exists t s1, call c this s = (Normal t, s1).
Proof.
  destruct c; simpl; intros H; try discriminate H.
  - apply collect_returns.
  - apply failed_returns.
  - apply flatMap_returns.
  - apply map_returns.
  - apply recover_returns.
  - apply recoverWith_returns.
  - apply transform_returns.
Qed.

(** A chain written in two pieces is the first piece followed by the
    second. *)
Lemma chain_app calls1 calls2 this s :
  chain (calls1 ++ calls2) this s
  = (t <- chain calls1 this ;; chain calls2 t) s.
Proof.
  revert this s. induction calls1 as [| c rest IH]; intros this s; simpl.
  - reflexivity.
  - destruct (call c this s) as [[t | p] s1] eqn:Hcall.
    + rewrite (bind_normal _ _ _ _ _ Hcall).
      unfold bind at 1.
      rewrite (bind_normal _ _ _ _ _ Hcall). apply IH.
    + rewrite (bind_thrown _ _ _ _ _ Hcall).
      unfold bind at 1.
      now rewrite (bind_thrown _ _ _ _ _ Hcall).
Qed.

Lemma chain_skips_Failure calls :
  forallb on_value calls = true ->
  forall i e s, chain calls (Failure i e) s = (Normal (Failure i e), s).
Proof.
  induction calls as [| c rest IH]; simpl; intros Hall i e s.
  - reflexivity.
  - apply andb_prop in Hall. destruct Hall as [Hc Hrest].
    assert (Hcall : call c (Failure i e) s = (Normal (Failure i e), s)).
    { destruct c; simpl in Hc; try discriminate Hc; reflexivity. }
    rewrite (bind_normal _ _ _ _ _ Hcall). now apply IH.
Qed.

(** X18. A [Failure] goes through any chain of [collect], [filter],
    [flatMap] and [map] calls untouched: the chain returns the receiver
    itself, invokes none of the callbacks (the state is as it was) and
    throws nothing. *)
Theorem chain_on_value_skips_Failure :
  forall calls,
    forallb on_value calls = true ->
    forall i e s, chain calls (Failure i e) s = (Normal (Failure i e), s).
Proof. exact chain_skips_Failure. Qed.

Lemma chain_on_value_skips_Failure_witness :
  chain [CallMap record_call; CallFilter boom; CallCollect record_call;
         CallFlatMap boom]
        (Failure 0 (VStr "foo")) (mkState 1 [])
  = (Normal (Failure 0 (VStr "foo")), mkState 1 []).
Proof.
  exact (chain_on_value_skips_Failure
           [CallMap record_call; CallFilter boom; CallCollect record_call;
            CallFlatMap boom]
           eq_refl 0 (VStr "foo") (mkState 1 [])).
Defined.

(** X19. A [Success] goes through any chain of [recover] and
    [recoverWith] calls untouched: the chain returns the receiver itself,
    invokes none of the callbacks and throws nothing. *)
Theorem chain_on_error_skips_Success :
  forall calls,
    forallb on_error calls = true ->
    forall i v s, chain calls (Success i v) s = (Normal (Success i v), s).
Proof.
  induction calls as [| c rest IH]; simpl; intros Hall i v s.
  - reflexivity.
  - apply andb_prop in Hall. destruct Hall as [Hc Hrest].
    assert (Hcall : call c (Success i v) s = (Normal (Success i v), s)).
    { destruct c; simpl in Hc; try discriminate Hc; reflexivity. }
    rewrite (bind_normal _ _ _ _ _ Hcall). now apply IH.
Qed.

Lemma chain_on_error_skips_Success_witness :
  chain [CallRecover record_call; CallRecoverWith boom]
        (Success 0 (VStr "bar")) (mkState 1 [])
  = (Normal (Success 0 (VStr "bar")), mkState 1 []).
Proof.
  exact (chain_on_error_skips_Success
           [CallRecover record_call; CallRecoverWith boom]
           eq_refl 0 (VStr "bar") (mkState 1 [])).
Defined.

(** X20. A chain that does not call [filter] never throws: whatever the
    callbacks do, every chain of [collect], [failed], [flatMap], [map],
    [recover], [recoverWith] and [transform] calls returns an instance. *)
Theorem chain_without_filter_never_throws :
  forall calls,
    existsb is_filter calls = false ->
    forall this s, exists t s1, chain calls this s = (Normal t, s1).
Proof.
  induction calls as [| c rest IH]; simpl; intros Hnone this s.
  - unfold ret. eauto.
  - apply Bool.orb_false_elim in Hnone. destruct Hnone as [Hc Hrest].
    destruct (call_returns c this s Hc) as (t & s1 & Hcall).
    rewrite (bind_normal _ _ _ _ _ Hcall).
    now apply IH.
Qed.

Lemma chain_without_filter_never_throws_witness :
  exists t s1,
    chain [CallMap boom; CallRecoverWith boom; CallFailed;
           CallTransform boom boom; CallCollect boom]
          (Success 0 (VNum 1)) (mkState 1 [])
    = (Normal t, s1).
Proof.
  exact (chain_without_filter_never_throws
           [CallMap boom; CallRecoverWith boom; CallFailed;
            CallTransform boom boom; CallCollect boom]
           eq_refl (Success 0 (VNum 1)) (mkState 1 [])).
Defined.

(** X21. The first failure is the one reported: once a chain has produced
    a [Failure], any further [collect], [filter], [flatMap] and [map]
    calls return that same [Failure] and invoke no callback. *)
Theorem chain_reports_first_Failure :
  forall calls1 calls2 this s t s1,
    chain calls1 this s = (Normal t, s1) ->
    isFailure t = true ->
    forallb on_value calls2 = true ->
    chain (calls1 ++ calls2) this s = (Normal t, s1).
Proof.
  intros calls1 calls2 this s t s1 Hrun Hfail Hall.
  rewrite chain_app, (bind_normal _ _ _ _ _ Hrun).
  destruct t as [i v | i e]; [discriminate Hfail|].
  now apply chain_skips_Failure.
Qed.

Lemma chain_reports_first_Failure_witness :
  chain ([CallMap identity; CallFilter positive]
         ++ [CallMap record_call; CallFlatMap boom])
        (Success 0 (VNum 0)) (mkState 1 [])
  = (Normal (Failure 3 (VError 2 "Predicate does not hold for 0")),
     mkState 4 []).
Proof.
  exact (chain_reports_first_Failure
           [CallMap identity; CallFilter positive]
           [CallMap record_call; CallFlatMap boom]
           (Success 0 (VNum 0)) (mkState 1 [])
           (Failure 3 (VError 2 "Predicate does not hold for 0"))
           (mkState 4 []) eq_refl eq_refl eq_refl).
Defined.
